(** * The ConversationRelay voice server (twilio-client/server.js)

    A shallow embedding of the Express/WebSocket server that relays
    transcribed caller speech to a Langflow agent and sends the agent's
    reply back as a text frame, together with the properties of its
    message handler, of [callLangflowAgent] and of the [/voice] webhook. *)

From Stdlib Require Import String Ascii List Bool Arith Lia PrimFloat DecimalString.
Import ListNotations.
Local Open Scope string_scope.

(** ** JavaScript values

    The values the server handles are JSON documents (parsed frames, the
    agent's response body), strings read from the environment and the
    [undefined] that property access yields.  Numbers are IEEE-754 doubles,
    as in the language.  An object is its list of own properties; a
    look-up finds the first binding of a name. *)
Module JS.

#[warnings="-register-all"] Inductive Value : Type :=
| Undefined
| Null
| Bool (b : bool)
| Num (x : float)
| Str (s : string)
| Arr (items : list Value)
| Obj (props : list (string * Value)).

(** ToBoolean: [undefined], [null], [false], [0], [-0], [NaN] and the empty
    string are falsy, everything else (every array and object) is truthy. *)
Definition truthy (v : Value) : bool :=
  match v with
  | Undefined | Null => false
  | Bool b => b
  | Num x => negb (PrimFloat.eqb x 0%float || PrimFloat.is_nan x)
  | Str s => negb (String.eqb s "")
  | Arr _ | Obj _ => true
  end.

Definition nullish (v : Value) : bool :=
  match v with
  | Undefined | Null => true
  | _ => false
  end.

(** [a || b]: the left operand when it is truthy, else the right one. *)
Definition or_else (a b : Value) : Value := if truthy a then a else b.

Fixpoint lookup (name : string) (props : list (string * Value)) : Value :=
  match props with
  | [] => Undefined
  | (k, v) :: rest => if String.eqb k name then v else lookup name rest
  end.

(** [v.name] on a value that is neither [null] nor [undefined].  Only own
    properties are modelled: the names the server reads (type, voicePrompt,
    outputs, results, message, text, data) are inherited by no array,
    string, number or boolean, so those yield [undefined]. *)
Definition member (v : Value) (name : string) : Value :=
  match v with
  | Obj props => lookup name props
  | _ => Undefined
  end.

(** [v[i]] on a value that is neither [null] nor [undefined]: the i-th item
    of an array, the i-th character of a string, the property named by the
    decimal numeral of [i] of an object. *)
Definition element (v : Value) (i : nat) : Value :=
  match v with
  | Arr items => nth i items Undefined
  | Str s => match String.get i s with
             | Some c => Str (String c EmptyString)
             | None => Undefined
             end
  | Obj props => lookup (NilEmpty.string_of_uint (Nat.to_uint i)) props
  | _ => Undefined
  end.

(** Optional chaining, [v?.name] and [v?.[i]]. *)
Definition opt_member (v : Value) (name : string) : Value :=
  if nullish v then Undefined else member v name.

Definition opt_element (v : Value) (i : nat) : Value :=
  if nullish v then Undefined else element v i.

(** What the server can throw or catch. *)
Inductive Exn : Type :=
| SyntaxError (msg : string)
| TypeError (msg : string)
| Error (msg : string)
| AxiosError (what : string) (status : option nat).

(** [v === 'literal'] against a string literal, as in the cases of a
    [switch]: only a string with the same characters is equal. *)
Definition strict_eq_str (v : Value) (s : string) : bool :=
  match v with
  | Str t => String.eqb t s
  | _ => false
  end.

(** Plain [v.name]: a TypeError on [null] and [undefined]. *)
Definition get_member (v : Value) (name : string) : Value + Exn :=
  if nullish v
  then inr (TypeError ("Cannot read properties of null or undefined, reading " ++ name))
  else inl (member v name).

(** A text handed to [JSON.parse]: either it is well-formed and denotes a
    value, or it is not and [JSON.parse] throws a SyntaxError. *)
Inductive Text : Type :=
| Parses (v : Value)
| Unparsable (raw : string).

Definition JSON_parse (t : Text) : Value + Exn :=
  match t with
  | Parses v => inl v
  | Unparsable _ => inr (SyntaxError "Unexpected token in JSON")
  end.

(** The string [JSON.stringify(v)], kept as the value it was made from. *)
Record Json : Type := JSON_stringify { stringified : Value }.

End JS.
Export JS.

Declare Scope js_scope.
Delimit Scope js_scope with js.
Notation "v ?. name" := (opt_member v name)
  (at level 1, left associativity, name at level 0) : js_scope.
Notation "v ?.[ i ]" := (opt_element v i)
  (at level 1, left associativity) : js_scope.
Notation "a '<||>' b" := (or_else a b)
  (at level 50, left associativity) : js_scope.
Notation "v === s" := (strict_eq_str v s)
  (at level 68, no associativity) : js_scope.
Local Open Scope js_scope.

(** ** Effects of the server

    A handler writes to the console, sends on the WebSocket, may throw, and
    suspends at [await axios.post(...)] until the HTTP call settles.  A
    program is the tree of these steps; the continuation of [Await] is
    the rest of the [async] function. *)
Module Effects.

Inductive LogArg : Type :=
| LStr (s : string)
| LVal (v : Value)
| LText (j : Json)
| LExn (e : Exn).

Inductive Stream : Type := Stdout | Stderr.

Record LogLine : Type := { stream : Stream; args : list LogArg }.

(** The third argument of [axios.post]: the headers object and the
    [timeout] option in milliseconds ([None] when the property is not
    given; axios then uses its default 0, which means no timeout). *)
Record AxiosConfig : Type := { headers : Value; timeout : option nat }.

Record AxiosCall : Type := { url : Value; body : Value; config : AxiosConfig }.

Record AxiosResponse : Type := { status : nat; data : Value }.

Inductive Settled : Type :=
| Fulfilled (response : AxiosResponse)
| Rejected (reason : Exn).

Inductive Prog (A : Type) : Type :=
| Ret (a : A)
| Throw (e : Exn)
| Console (line : LogLine) (k : Prog A)
| WsSend (frame : Json) (k : Prog A)
| Await (call : AxiosCall) (k : Settled -> Prog A).

Arguments Ret {A} a.
Arguments Throw {A} e.
Arguments Console {A} line k.
Arguments WsSend {A} frame k.
Arguments Await {A} call k.

Fixpoint bind {A B : Type} (p : Prog A) (f : A -> Prog B) : Prog B :=
  match p with
  | Ret a => f a
  | Throw e => Throw e
  | Console line k => Console line (bind k f)
  | WsSend frame k => WsSend frame (bind k f)
  | Await call k => Await call (fun r => bind (k r) f)
  end.

(** [try { p } catch (error) { h error }] *)
Fixpoint try_catch {A : Type} (p : Prog A) (h : Exn -> Prog A) : Prog A :=
  match p with
  | Ret a => Ret a
  | Throw e => h e
  | Console line k => Console line (try_catch k h)
  | WsSend frame k => WsSend frame (try_catch k h)
  | Await call k => Await call (fun r => try_catch (k r) h)
  end.

Definition lift {A : Type} (r : A + Exn) : Prog A :=
  match r with
  | inl a => Ret a
  | inr e => Throw e
  end.

Definition console_log (args : list LogArg) : Prog unit :=
  Console {| stream := Stdout; args := args |} (Ret tt).

Definition console_error (args : list LogArg) : Prog unit :=
  Console {| stream := Stderr; args := args |} (Ret tt).

Definition ws_send (frame : Json) : Prog unit := WsSend frame (Ret tt).

(** [await axios.post(url, body, config)]: the response when the promise
    is fulfilled, the rejection reason thrown otherwise. *)
Definition axios_post (url body : Value) (config : AxiosConfig) : Prog AxiosResponse :=
  Await {| url := url; body := body; config := config |}
        (fun r => match r with
                  | Fulfilled response => Ret response
                  | Rejected reason => Throw reason
                  end).

End Effects.
Export Effects.

Declare Scope prog_scope.
Delimit Scope prog_scope with prog.
Notation "x <- p ;; q" := (bind p (fun x => q))
  (at level 61, p at next level, right associativity) : prog_scope.
Notation "p ;; q" := (bind p (fun _ => q))
  (at level 61, right associativity) : prog_scope.
Local Open Scope prog_scope.

(** ** server.js *)
Module Server.

(** [process.env]: the variables that are set, each with its string. *)
Definition ProcessEnv : Type := list (string * string).

Fixpoint getenv (env : ProcessEnv) (name : string) : Value :=
  match env with
  | [] => Undefined
  | (k, s) :: rest => if String.eqb k name then Str s else getenv rest name
  end.

(** A template literal hole, [`${v}`], for the values that reach one here:
    a string or [undefined]. *)
Definition interpolate (v : Value) : string :=
  match v with
  | Str s => s
  | _ => "undefined"
  end.

(** [obj[name] = v] on an object that has no such property yet. *)
Definition set_prop (obj : Value) (name : string) (v : Value) : Value :=
  match obj with
  | Obj props => Obj (props ++ [(name, v)])
  | other => other
  end.

Definition DIDNT_UNDERSTAND : string :=
  "I'm sorry, I didn't understand that. Could you please try again?".

Definition APOLOGY : string :=
  "I'm sorry, I'm having trouble processing your request right now. Please try again later.".

Definition GREETING : string :=
  "Hello! I'm P, the event MC. How can I help you today?".

(** Lines 130-132: the reply text taken from the response. *)
Definition extract_reply (response : AxiosResponse) : Value :=
  (data response)?."outputs"?.[0]?."outputs"?.[0]?."results"?."message"?."text"
  <||> (data response)?."message"
  <||> Str DIDNT_UNDERSTAND.

(** Lines 103-141. *)
Definition callLangflowAgent (env : ProcessEnv) (userMessage : Value) : Prog Value :=
  try_catch
    (let langflowUrl := getenv env "LANGFLOW_URL" in
     let apiKey := getenv env "LANGFLOW_API_KEY" in
     if negb (truthy langflowUrl) then Throw (Error "LANGFLOW_URL not configured") else
     let payload := Obj [("input_value", userMessage);
                         ("output_type", Str "chat");
                         ("input_type", Str "chat")] in
     let headers := Obj [("Content-Type", Str "application/json")] in
     let headers := if truthy apiKey
                    then set_prop headers "Authorization" (Str ("Bearer " ++ interpolate apiKey))
                    else headers in
     console_log [LStr "Calling Langflow agent with:"; LVal userMessage] ;;
     response <- axios_post langflowUrl payload {| headers := headers; timeout := None |} ;;
     let agentResponse := extract_reply response in
     console_log [LStr "Langflow agent response:"; LVal agentResponse] ;;
     Ret agentResponse)
    (fun error =>
       console_error [LStr "Error calling Langflow agent:"; LExn error] ;;
       Ret (Str APOLOGY)).

(** Lines 70-75: the frame sent back to ConversationRelay. *)
Definition responseMessage (agentResponse : Value) : Value :=
  Obj [("type", Str "text");
       ("token", agentResponse);
       ("last", Bool true);
       ("interruptible", Bool true)].

(** Lines 50-91: the handler of the WebSocket's [message] event.  [data] is
    the text of the frame, [data.toString()]. *)
Definition on_message (env : ProcessEnv) (data : Text) : Prog unit :=
  try_catch
    (message <- lift (JSON_parse data) ;;
     console_log [LStr "Received message:"; LText (JSON_stringify message)] ;;
     type <- lift (get_member message "type") ;;
     if type === "setup" then
       console_log [LStr "ConversationRelay setup completed"]
     else if type === "prompt" then
       userText <- lift (get_member message "voicePrompt") ;;
       console_log [LStr "User said:"; LVal userText] ;;
       agentResponse <- callLangflowAgent env userText ;;
       console_log [LStr "Sending response:";
                    LText (JSON_stringify (responseMessage agentResponse))] ;;
       ws_send (JSON_stringify (responseMessage agentResponse))
     else if type === "interrupt" then
       console_log [LStr "User interrupted the response"]
     else
       console_log [LStr "Unknown message type:"; LVal type])
    (fun error =>
       console_error [LStr "Error processing WebSocket message:"; LExn error]).

(** TwiML, as the tree that [response.toString()] serialises. *)
#[warnings="-register-all"] Inductive Xml : Type :=
| Element (tag : string) (attrs : list (string * string)) (children : list Xml).

Record HttpRequest : Type := { host : option string }.

Record HttpResponse : Type := { content_type : string; payload : Xml }.

(** [req.get('host')]: the Host header, [undefined] when there is none. *)
Definition req_get_host (req : HttpRequest) : Value :=
  match host req with
  | Some h => Str h
  | None => Undefined
  end.

(** Lines 21-32: the [/voice] webhook. *)
Definition voice (req : HttpRequest) : HttpResponse :=
  let relay :=
    Element "ConversationRelay"
      [("url", "wss://" ++ interpolate (req_get_host req) ++ "/websocket");
       ("welcomeGreeting", GREETING);
       ("language", "en-US")] [] in
  let connect := Element "Connect" [] [relay] in
  let response := Element "Response" [] [connect] in
  {| content_type := "text/xml"; payload := response |}.

End Server.
Export Server.

(** ** The agent endpoint, seen through axios

    What the configured endpoint does with one POST, and how axios (with
    its default [validateStatus] and [transformResponse]) settles the
    promise: a network error rejects; a status outside 200-299 rejects; a
    body that is not JSON is left in [data] as the raw string; with a
    positive [timeout] the promise is rejected once that many milliseconds
    have passed; with none it waits for as long as the endpoint takes. *)
Module Axios.

Inductive Backend : Type :=
| NetworkError (after : nat) (code : string)
| Responds (after : nat) (status : nat) (body : Text)
| Silent.

Definition validateStatus (status : nat) : bool :=
  ((200 <=? status) && (status <? 300))%nat.

Definition transformResponse (body : Text) : Value :=
  match body with
  | Parses v => v
  | Unparsable raw => Str raw
  end.

Definition untimed (b : Backend) : option (nat * Settled) :=
  match b with
  | NetworkError after code => Some (after, Rejected (AxiosError code None))
  | Responds after st body =>
      if validateStatus st
      then Some (after, Fulfilled {| status := st; data := transformResponse body |})
      else Some (after, Rejected (AxiosError "Request failed with status code" (Some st)))
  | Silent => None
  end.

Definition aborted (deadline : nat) : nat * Settled :=
  (deadline, Rejected (AxiosError "timeout exceeded" None)).

(** When and how the promise of [call] settles against [b]; [None] when it
    never does. *)
Definition settle (call : AxiosCall) (b : Backend) : option (nat * Settled) :=
  match timeout (config call) with
  | None | Some 0 => untimed b
  | Some deadline =>
      match untimed b with
      | Some (after, r) => if (after <=? deadline)%nat then Some (after, r) else Some (aborted deadline)
      | None => Some (aborted deadline)
      end
  end.

(** One run of a program to its end, every HTTP call it makes being
    answered by [b]: the time spent waiting, what was logged and sent, and
    the value returned or the exception that escaped. *)
Record Run (A : Type) : Type :=
  { elapsed : nat; logged : list LogLine; sent : list Json; result : A + Exn }.

Arguments elapsed {A} r.
Arguments logged {A} r.
Arguments sent {A} r.
Arguments result {A} r.

Definition after_wait {A : Type} (t : nat) (r : Run A) : Run A :=
  {| elapsed := t + elapsed r; logged := logged r; sent := sent r; result := result r |}.

Definition after_log {A : Type} (line : LogLine) (r : Run A) : Run A :=
  {| elapsed := elapsed r; logged := line :: logged r; sent := sent r; result := result r |}.

Definition after_send {A : Type} (frame : Json) (r : Run A) : Run A :=
  {| elapsed := elapsed r; logged := logged r; sent := frame :: sent r; result := result r |}.

(** [None]: the program never finishes. *)
Fixpoint run {A : Type} (b : Backend) (p : Prog A) : option (Run A) :=
  match p with
  | Ret a => Some {| elapsed := 0; logged := []; sent := []; result := inl a |}
  | Throw e => Some {| elapsed := 0; logged := []; sent := []; result := inr e |}
  | Console line k => option_map (after_log line) (run b k)
  | WsSend frame k => option_map (after_send frame) (run b k)
  | Await call k =>
      match settle call b with
      | Some (t, r) => option_map (after_wait t) (run b (k r))
      | None => None
      end
  end.

End Axios.
Export Axios.

(** [ask]: one invocation of [callLangflowAgent] against the endpoint. *)
Definition ask (env : ProcessEnv) (userMessage : Value) (b : Backend) : option (Run Value) :=
  run b (callLangflowAgent env userMessage).

(** ** One connection

    The server is a single-threaded event loop.  Per connection, the events
    are: a frame arrives, the HTTP call of a suspended handler settles, the
    peer closes.  A handler runs until it finishes or reaches its [await];
    there it is parked with the rest of its program and the loop is free
    for the next event. *)
Module Relay.

Inductive ReadyState : Type := OPEN | CLOSED.

Record Pending : Type :=
  { call_id : nat; request : AxiosCall; resume : Settled -> Prog unit }.

Record Session : Type :=
  { readyState : ReadyState;
    outbox : list Json;          (* frames written to the socket, oldest first *)
    console : list LogLine;      (* oldest first *)
    inflight : list Pending;     (* handlers waiting for their call, oldest first *)
    next_id : nat;
    crashed : option Exn }.      (* a rejection no handler caught *)

Definition log (line : LogLine) (s : Session) : Session :=
  {| readyState := readyState s; outbox := outbox s;
     console := console s ++ [line]; inflight := inflight s;
     next_id := next_id s; crashed := crashed s |}.

(** [ws.send]: written when the socket is open; after the close the data is
    discarded (ws 7 and later, no callback given). *)
Definition write (frame : Json) (s : Session) : Session :=
  match readyState s with
  | OPEN =>
      {| readyState := OPEN; outbox := outbox s ++ [frame];
         console := console s; inflight := inflight s;
         next_id := next_id s; crashed := crashed s |}
  | CLOSED => s
  end.

Definition suspend (call : AxiosCall) (k : Settled -> Prog unit) (s : Session) : Session :=
  {| readyState := readyState s; outbox := outbox s; console := console s;
     inflight := inflight s ++ [{| call_id := next_id s; request := call; resume := k |}];
     next_id := S (next_id s); crashed := crashed s |}.

(** The promise of an [async] handler is rejected and nobody handles it:
    Node ends the process, and the connection with it. *)
Definition crash (e : Exn) (s : Session) : Session :=
  {| readyState := CLOSED; outbox := outbox s; console := console s;
     inflight := []; next_id := next_id s; crashed := Some e |}.

Fixpoint exec (p : Prog unit) (s : Session) : Session :=
  match p with
  | Ret _ => s
  | Throw e => crash e s
  | Console line k => exec k (log line s)
  | WsSend frame k => exec k (write frame s)
  | Await call k => suspend call k s
  end.

Fixpoint take (id : nat) (ps : list Pending) : option (Pending * list Pending) :=
  match ps with
  | [] => None
  | p :: rest =>
      if Nat.eqb (call_id p) id then Some (p, rest)
      else match take id rest with
           | Some (q, rest') => Some (q, p :: rest')
           | None => None
           end
  end.

Definition with_inflight (ps : list Pending) (s : Session) : Session :=
  {| readyState := readyState s; outbox := outbox s; console := console s;
     inflight := ps; next_id := next_id s; crashed := crashed s |}.

Definition close (s : Session) : Session :=
  {| readyState := CLOSED; outbox := outbox s; console := console s;
     inflight := inflight s; next_id := next_id s; crashed := crashed s |}.

Inductive Event : Type :=
| Message (data : Text)
| Settles (id : nat) (r : Settled)
| Close.

(** Line 47-48: a new connection. *)
Definition connect : Session :=
  {| readyState := OPEN; outbox := [];
     console := [{| stream := Stdout; args := [LStr "ConversationRelay WebSocket connected"] |}];
     inflight := []; next_id := 0; crashed := None |}.

Definition step (env : ProcessEnv) (s : Session) (ev : Event) : Session :=
  match crashed s with
  | Some _ => s
  | None =>
      match ev with
      | Message data =>
          match readyState s with
          | OPEN => exec (on_message env data) s
          | CLOSED => s
          end
      | Settles id r =>
          match take id (inflight s) with
          | Some (p, rest) => exec (resume p r) (with_inflight rest s)
          | None => s
          end
      | Close =>
          match readyState s with
          | OPEN => log {| stream := Stdout;
                           args := [LStr "ConversationRelay WebSocket disconnected"] |}
                        (close s)
          | CLOSED => s
          end
      end
  end.

Definition steps (env : ProcessEnv) (s : Session) (evs : list Event) : Session :=
  fold_left (step env) evs s.

End Relay.
Export Relay.

(** ** Vocabulary of the properties *)

(** The kind discriminator of a parsed frame. *)
Definition kind (message : Value) : Value := member message "type".

(** A frame the dispatcher has a case for. *)
Definition recognised (data : Text) : bool :=
  match data with
  | Parses message =>
      (kind message === "setup") || (kind message === "prompt") || (kind message === "interrupt")
  | Unparsable _ => false
  end.

(** The outbound frame of type [text] that carries [token]. *)
Definition text_frame (token : Value) : Json := JSON_stringify (responseMessage token).

(** The text [callLangflowAgent] returns once its HTTP call has settled. *)
Definition answer_of (r : Settled) : Value :=
  match r with
  | Fulfilled response => extract_reply response
  | Rejected _ => Str APOLOGY
  end.

(** The two places of a response body the reply is looked for. *)
Definition nested_text (d : Value) : Value :=
  d?."outputs"?.[0]?."outputs"?.[0]?."results"?."message"?."text".

Definition top_message (d : Value) : Value := d?."message".

(** The body [{outputs:[{outputs:[{results:{message:{text:X}}}]}]}]. *)
Definition nested_body (x : Value) : Value :=
  Obj [("outputs",
        Arr [Obj [("outputs",
                   Arr [Obj [("results",
                              Obj [("message", Obj [("text", x)])])]])]])].

(** An endpoint that answers 200 with the JSON body [d] after [t] ms. *)
Definition replies (t : nat) (d : Value) : Backend := Responds t 200 (Parses d).

(** The agent call is not made or is rejected: no endpoint is configured,
    the network fails, or the status is not a success. *)
Definition call_fails (env : ProcessEnv) (b : Backend) : bool :=
  negb (truthy (getenv env "LANGFLOW_URL")) ||
  match untimed b with
  | Some (_, Rejected _) => true
  | _ => false
  end.

(** The attributes of the first element with the given tag, depth first. *)
Fixpoint find_element (tag : string) (x : Xml) : option (list (string * string)) :=
  match x with
  | Element t attrs children =>
      if String.eqb t tag then Some attrs
      else (fix scan (xs : list Xml) : option (list (string * string)) :=
              match xs with
              | [] => None
              | c :: rest => match find_element tag c with
                             | Some a => Some a
                             | None => scan rest
                             end
              end) children
  end.

Fixpoint attribute (name : string) (attrs : list (string * string)) : option string :=
  match attrs with
  | [] => None
  | (k, v) :: rest => if String.eqb k name then Some v else attribute name rest
  end.

(** An attribute of the [<ConversationRelay>] element of a TwiML document. *)
Definition relay_attribute (name : string) (r : HttpResponse) : option string :=
  match find_element "ConversationRelay" (payload r) with
  | Some attrs => attribute name attrs
  | None => None
  end.

Definition pending_ids (s : Session) : list nat := map call_id (inflight s).

(** What a finished run is seen to have done. *)
Definition outcome {A : Type} (r : Run A) : nat * list Json * (A + Exn) :=
  (elapsed r, sent r, result r).

(** No path through the program ends in an uncaught exception. *)
Fixpoint safe {A : Type} (p : Prog A) : Prop :=
  match p with
  | Ret _ => True
  | Throw _ => False
  | Console _ k => safe k
  | WsSend _ k => safe k
  | Await _ k => forall r, safe (k r)
  end.

(** The frames a program sends when it runs to its end without suspending
    and without throwing; [None] when it suspends or throws. *)
Fixpoint emits (p : Prog unit) : option (list Json) :=
  match p with
  | Ret _ => Some []
  | Throw _ => None
  | Console _ k => emits k
  | WsSend frame k => option_map (cons frame) (emits k)
  | Await _ _ => None
  end.

(** The shape of a handler: it logs, then either finishes having sent at
    most one frame, or suspends with a continuation that sends exactly the
    answer made from how the call settled. *)
Inductive turn : Prog unit -> Prop :=
| turn_silent (p : Prog unit) : emits p = Some [] -> turn p
| turn_apology (p : Prog unit) : emits p = Some [text_frame (Str APOLOGY)] -> turn p
| turn_await (call : AxiosCall) (k : Settled -> Prog unit) :
    (forall r, emits (k r) = Some [text_frame (answer_of r)]) -> turn (Await call k)
| turn_log (line : LogLine) (k : Prog unit) : turn k -> turn (Console line k).

(** Every parked handler answers once, with the answer of its call. *)
Definition answering (s : Session) : Prop :=
  Forall (fun p => forall r, emits (resume p r) = Some [text_frame (answer_of r)]) (inflight s).

(** ** Sample inputs *)

(** An environment with an endpoint configured, and one without. *)
Definition configured : ProcessEnv := [("LANGFLOW_URL", "http://localhost:7860/api/v1/run/emcee")].

Definition unconfigured : ProcessEnv := [].

(** The frame [{type:'prompt', voicePrompt:text}]. *)
Definition prompt_frame (text : string) : Value :=
  Obj [("type", Str "prompt"); ("voicePrompt", Str text)].

(** The frame [{type:'setup', callSid:sid}]. *)
Definition setup_frame (sid : string) : Value :=
  Obj [("type", Str "setup"); ("callSid", Str sid)].

(** A 200 response whose body is [{message:text}]. *)
Definition message_response (text : string) : AxiosResponse :=
  {| status := 200; data := Obj [("message", Str text)] |}.

(** A body with an empty nested text and a top-level message. *)
Definition empty_text_with_message : Value :=
  Obj [("outputs",
        Arr [Obj [("outputs",
                   Arr [Obj [("results",
                              Obj [("message", Obj [("text", Str "")])])]])]]);
       ("message", Str "10:30 AM")].

(** A caller who speaks twice before the agent has answered. *)
Definition two_prompts : list Event :=
  [Message (Parses (prompt_frame "What time is the keynote?"));
   Message (Parses (prompt_frame "Where is the main hall?"))].

(** The second call settles before the first. *)
Definition second_answered_first : list (nat * Settled) :=
  [(1, Fulfilled (message_response "On the ground floor"));
   (0, Fulfilled (message_response "10:30 AM"))].

Definition settlements (l : list (nat * Settled)) : list Event :=
  map (fun ir => Settles (fst ir) (snd ir)) l.

Definition frames_of (messages : list Value) : list Event :=
  map (fun m => Message (Parses m)) messages.

(** What [ask] returns, when it returns. *)
Definition returned (o : option (Run Value)) : option (Value + Exn) := option_map result o.

(** The identifiers of the parked calls are distinct and already used. *)
Definition distinct_ids (s : Session) : Prop :=
  Forall (fun p => call_id p < next_id s) (inflight s) /\ NoDup (pending_ids s).

(** ** Vocabulary of the further properties *)

(** A frame that parses and whose kind is [prompt]. *)
Definition is_prompt (data : Text) : bool :=
  match data with
  | Parses message => kind message === "prompt"
  | Unparsable _ => false
  end.

(** The prompt frames among the events of a connection. *)
Definition count_prompts (evs : list Event) : nat :=
  length (filter (fun ev => match ev with
                            | Message data => is_prompt data
                            | _ => false
                            end) evs).

(** No event of the list is the peer closing. *)
Definition stays_open (evs : list Event) : Prop :=
  Forall (fun ev => ev <> Close) evs.


Definition is_object (v : Value) : bool :=
  match v with
  | Obj _ => true
  | _ => false
  end.

(** A header of the request of a parked call. *)
Definition request_header (p : Pending) (name : string) : Value :=
  member (headers (config (request p))) name.

(** A body with a nested result that is an object and a top-level message. *)
Definition rich_text_with_message : Value :=
  Obj [("outputs",
        Arr [Obj [("outputs",
                   Arr [Obj [("results",
                              Obj [("message",
                                    Obj [("text", Obj [("markdown", Str "*10:30*")])])])]])]]);
       ("message", Str "10:30 AM")].

(** An environment with an endpoint and a credential. *)
Definition with_key : ProcessEnv :=
  [("LANGFLOW_URL", "http://localhost:7860/api/v1/run/emcee");
   ("LANGFLOW_API_KEY", "sk-emcee")].



(** A conversation: set-up, two utterances, an interruption, one answer. *)
Definition mixed_conversation : list Event :=
  [Message (Parses (setup_frame "CA01"));
   Message (Parses (prompt_frame "What time is the keynote?"));
   Message (Parses (prompt_frame "Where is the main hall?"));
   Message (Parses (Obj [("type", Str "interrupt")]));
   Message (Unparsable "{type:");
   Settles 1 (Fulfilled (message_response "On the ground floor"))].


(** * Properties *)

Local Open Scope list_scope.

(** ** Reply extraction *)

Lemma or_else_truthy (a b : Value) : truthy a = true -> a <||> b = a.
Proof. unfold or_else; intros ->; reflexivity. Qed.

Lemma or_else_falsy (a b : Value) : truthy a = false -> a <||> b = b.
Proof. unfold or_else; intros ->; reflexivity. Qed.

Lemma truthy_Str (x : string) : truthy (Str x) = negb (String.eqb x "").
Proof. reflexivity. Qed.

Lemma truthy_Str_nonempty (x : string) : x <> "" -> truthy (Str x) = true.
Proof.
  intros Hx; rewrite truthy_Str.
  destruct (String.eqb_spec x ""); [contradiction | reflexivity].
Qed.

Lemma extract_reply_chain (response : AxiosResponse) :
  extract_reply response =
    nested_text (data response) <||> top_message (data response) <||> Str DIDNT_UNDERSTAND.
Proof. reflexivity. Qed.

Lemma nested_text_nested_body (x : Value) : nested_text (nested_body x) = x.
Proof. reflexivity. Qed.

Lemma extract_reply_truthy (response : AxiosResponse) :
  truthy (extract_reply response) = true.
Proof.
  rewrite extract_reply_chain.
  destruct (truthy (nested_text (data response))) eqn:Hn.
  - rewrite (or_else_truthy _ _ Hn), or_else_truthy; assumption.
  - rewrite (or_else_falsy _ _ Hn).
    destruct (truthy (top_message (data response))) eqn:Hm.
    + rewrite or_else_truthy; assumption.
    + rewrite or_else_falsy by assumption. reflexivity.
Qed.

Lemma extract_reply_nested (response : AxiosResponse) :
  truthy (nested_text (data response)) = true ->
  extract_reply response = nested_text (data response).
Proof.
  intros Hn. rewrite extract_reply_chain.
  now rewrite (or_else_truthy _ _ Hn), or_else_truthy.
Qed.

Lemma extract_reply_message (response : AxiosResponse) :
  truthy (nested_text (data response)) = false ->
  truthy (top_message (data response)) = true ->
  extract_reply response = top_message (data response).
Proof.
  intros Hn Hm. rewrite extract_reply_chain.
  now rewrite (or_else_falsy _ _ Hn), or_else_truthy.
Qed.

Lemma extract_reply_default (response : AxiosResponse) :
  truthy (nested_text (data response)) = false ->
  truthy (top_message (data response)) = false ->
  extract_reply response = Str DIDNT_UNDERSTAND.
Proof.
  intros Hn Hm. rewrite extract_reply_chain.
  now rewrite (or_else_falsy _ _ Hn), or_else_falsy.
Qed.

(** ** One agent call *)

(** With no endpoint configured the call is not made. *)
Lemma ask_unconfigured (env : ProcessEnv) (userMessage : Value) (b : Backend) :
  truthy (getenv env "LANGFLOW_URL") = false ->
  option_map outcome (ask env userMessage b) = Some (0, [], inl (Str APOLOGY)).
Proof.
  intros Hurl. unfold ask, callLangflowAgent. rewrite Hurl. reflexivity.
Qed.

(** With an endpoint configured, [ask] ends when, and only when, the HTTP
    call settles, and returns the answer made from how it settled. *)
Lemma ask_configured (env : ProcessEnv) (userMessage : Value) (b : Backend) :
  truthy (getenv env "LANGFLOW_URL") = true ->
  option_map outcome (ask env userMessage b) =
  option_map (fun tr => (fst tr + 0, [], inl (answer_of (snd tr)))) (untimed b).
Proof.
  intros Hurl. unfold ask, callLangflowAgent. rewrite Hurl. cbn.
  destruct (untimed b) as [[t [response | reason]] | ]; reflexivity.
Qed.

Lemma ask_returns (env : ProcessEnv) (userMessage : Value) (b : Backend) :
  truthy (getenv env "LANGFLOW_URL") = true ->
  option_map result (ask env userMessage b) =
  option_map (fun tr => inl (answer_of (snd tr))) (untimed b).
Proof.
  intros Hurl. pose proof (ask_configured env userMessage b Hurl) as H.
  destruct (ask env userMessage b) as [r | ], (untimed b) as [[t s] | ];
    cbn in *; try discriminate; [ | reflexivity].
  injection H as _ _ Hr. unfold outcome in *. now rewrite Hr.
Qed.

Lemma ask_elapsed (env : ProcessEnv) (userMessage : Value) (b : Backend) :
  truthy (getenv env "LANGFLOW_URL") = true ->
  option_map elapsed (ask env userMessage b) = option_map fst (untimed b).
Proof.
  intros Hurl. pose proof (ask_configured env userMessage b Hurl) as H.
  destruct (ask env userMessage b) as [r | ], (untimed b) as [[t s] | ];
    cbn in *; try discriminate; [ | reflexivity].
  injection H as Ht _ _. now rewrite Ht, Nat.add_0_r.
Qed.

Lemma ask_replies (env : ProcessEnv) (userMessage : Value) (t : nat) (d : Value) :
  truthy (getenv env "LANGFLOW_URL") = true ->
  returned (ask env userMessage (replies t d)) =
    Some (inl (extract_reply {| status := 200; data := d |})).
Proof. intros Hurl. unfold returned. now rewrite (ask_returns env _ _ Hurl). Qed.

(** With no endpoint configured nothing is awaited: the apology comes at
    once, even from an endpoint that would never answer. *)
Lemma unconfigured_apology :
  option_map outcome (ask unconfigured (Str "hello") Silent) =
    Some (0, [], inl (Str APOLOGY)).
Proof. now apply ask_unconfigured. Qed.

(** ** Handlers never throw *)

Lemma safe_bind {A B : Type} (p : Prog A) (f : A -> Prog B) :
  safe p -> (forall a, safe (f a)) -> safe (bind p f).
Proof.
  intros Hp Hf. induction p as [a | e | line k IH | frame k IH | call k IH];
    cbn in *; auto.
Qed.

Lemma safe_try_catch {A : Type} (p : Prog A) (h : Exn -> Prog A) :
  (forall e, safe (h e)) -> safe (try_catch p h).
Proof.
  intros Hh. induction p as [a | e | line k IH | frame k IH | call k IH];
    cbn; auto.
Qed.

Lemma safe_callLangflowAgent (env : ProcessEnv) (userMessage : Value) :
  safe (callLangflowAgent env userMessage).
Proof. apply safe_try_catch. intros e. exact I. Qed.

Lemma safe_on_message (env : ProcessEnv) (data : Text) : safe (on_message env data).
Proof. apply safe_try_catch. intros e. exact I. Qed.

Lemma safe_run {A : Type} (b : Backend) (p : Prog A) :
  safe p -> forall r, run b p = Some r -> exists a, result r = inl a.
Proof.
  induction p as [a | e | line k IH | frame k IH | call k IH]; cbn; intros Hs r Hr.
  - injection Hr as <-. now exists a.
  - contradiction.
  - destruct (run b k) as [r' | ] eqn:Hk; [ | discriminate].
    injection Hr as <-. exact (IH Hs r' eq_refl).
  - destruct (run b k) as [r' | ] eqn:Hk; [ | discriminate].
    injection Hr as <-. exact (IH Hs r' eq_refl).
  - destruct (settle call b) as [[t s] | ]; [ | discriminate].
    destruct (run b (k s)) as [r' | ] eqn:Hk; [ | discriminate].
    injection Hr as <-. exact (IH s (Hs s) r' Hk).
Qed.

(** ** Running a handler inside a session *)

Lemma strict_eq_str_true (v : Value) (s : string) :
  v === s = true -> v = Str s.
Proof.
  destruct v; cbn; try discriminate.
  intros H. apply String.eqb_eq in H. now subst.
Qed.

Lemma kind_is_object (message : Value) (s : string) :
  kind message === s = true ->
  exists props, message = Obj props /\ lookup "type" props = Str s.
Proof.
  intros H. apply strict_eq_str_true in H.
  destruct message; cbn in H; try discriminate.
  now exists props.
Qed.

(** A program that neither suspends nor throws only logs and sends. *)
Lemma exec_emits (p : Prog unit) :
  forall (frames : list Json) (s : Session),
    emits p = Some frames ->
    readyState (exec p s) = readyState s /\
    outbox (exec p s) =
      match readyState s with
      | OPEN => outbox s ++ frames
      | CLOSED => outbox s
      end /\
    inflight (exec p s) = inflight s /\
    next_id (exec p s) = next_id s /\
    crashed (exec p s) = crashed s.
Proof.
  induction p as [a | e | line k IH | frame k IH | call k IH]; cbn; intros frames s H.
  - injection H as <-. rewrite app_nil_r. destruct (readyState s); auto.
  - discriminate.
  - destruct (IH frames (log line s) H) as (H1 & H2 & H3 & H4 & H5).
    cbn in *. auto.
  - destruct (emits k) as [rest | ] eqn:Hk; [ | discriminate].
    injection H as <-.
    destruct (IH rest (write frame s) eq_refl) as (H1 & H2 & H3 & H4 & H5).
    unfold write in *. destruct (readyState s) eqn:Hs; cbn in *.
    + rewrite <- app_assoc in H2. auto.
    + rewrite Hs in *. auto.
  - discriminate.
Qed.

(** The handler has the shape of a turn, whatever the frame. *)
Lemma turn_on_message (env : ProcessEnv) (data : Text) : turn (on_message env data).
Proof.
  destruct data as [message | raw]; [ | now apply turn_silent].
  unfold on_message.
  destruct message as [ | | b | x | t | items | props];
    try (now apply turn_silent).
  cbn [JSON_parse lift bind try_catch console_log get_member nullish member].
  apply turn_log.
  destruct (lookup "type" props === "setup"); [now apply turn_silent | ].
  destruct (lookup "type" props === "prompt").
  - unfold callLangflowAgent.
    destruct (truthy (getenv env "LANGFLOW_URL")); cbn.
    + apply turn_log, turn_log, turn_await. intros [response | reason]; reflexivity.
    + apply turn_apology. reflexivity.
  - destruct (lookup "type" props === "interrupt"); now apply turn_silent.
Qed.

Lemma turn_exec (p : Prog unit) :
  turn p ->
  forall s,
    readyState (exec p s) = readyState s /\
    crashed (exec p s) = crashed s /\
    (answering s -> answering (exec p s)).
Proof.
  unfold answering.
  induction 1 as [p Hp | p Hp | call k Hk | line k Hk IH]; intros s.
  - destruct (exec_emits p _ s Hp) as (H1 & _ & H3 & _ & H5). rewrite H3. auto.
  - destruct (exec_emits p _ s Hp) as (H1 & _ & H3 & _ & H5). rewrite H3. auto.
  - cbn. repeat split. intros Hs. apply Forall_app. split; [assumption | ].
    constructor; [exact Hk | constructor].
  - cbn. destruct (IH (log line s)) as (H1 & H2 & H3). auto.
Qed.

Lemma take_some (id : nat) (ps : list Pending) :
  In id (map call_id ps) -> exists p rest, take id ps = Some (p, rest).
Proof.
  induction ps as [ | q ps IH]; cbn; [contradiction | ].
  intros [Hq | Hin].
  - rewrite Hq, Nat.eqb_refl. eauto.
  - destruct (Nat.eqb (call_id q) id); [eauto | ].
    destruct (IH Hin) as (p & rest & ->). eauto.
Qed.

Lemma take_Forall (P : Pending -> Prop) (id : nat) (ps : list Pending) :
  forall p rest, take id ps = Some (p, rest) -> Forall P ps -> P p /\ Forall P rest.
Proof.
  induction ps as [ | q ps IH]; cbn; intros p rest H HP; [discriminate | ].
  inversion HP as [ | ? ? Hq Hps]; subst.
  destruct (Nat.eqb (call_id q) id).
  - injection H as <- <-. auto.
  - destruct (take id ps) as [[p' rest'] | ]; [ | discriminate].
    injection H as <- <-. destruct (IH p' rest' eq_refl Hps). auto.
Qed.

(** Settling one call leaves every other parked handler parked. *)
Lemma take_others (id : nat) (ps : list Pending) :
  forall p rest, take id ps = Some (p, rest) ->
  forall j, j <> id -> In j (map call_id ps) -> In j (map call_id rest).
Proof.
  induction ps as [ | q ps IH]; cbn; intros p rest H j Hj Hin; [discriminate | ].
  destruct (Nat.eqb_spec (call_id q) id) as [Heq | Hne].
  - injection H as <- <-. destruct Hin as [Hq | Hin]; [congruence | assumption].
  - destruct (take id ps) as [[p' rest'] | ]; [ | discriminate].
    injection H as <- <-. cbn. destruct Hin as [Hq | Hin]; [now left | right].
    now apply (IH p' rest' eq_refl).
Qed.

(** The invariant of a connection: nothing escaped a handler, and every
    parked handler will answer once. *)
Lemma step_healthy (env : ProcessEnv) (s : Session) (ev : Event) :
  crashed s = None -> answering s ->
  crashed (step env s ev) = None /\ answering (step env s ev).
Proof.
  intros Hc Ha. unfold step. rewrite Hc.
  destruct ev as [data | id r | ].
  - destruct (readyState s); [ | auto].
    destruct (turn_exec _ (turn_on_message env data) s) as (_ & H2 & H3).
    rewrite H2. auto.
  - destruct (take id (inflight s)) as [[p rest] | ] eqn:Ht; [ | auto].
    destruct (take_Forall _ id _ p rest Ht Ha) as [Hp Hrest].
    destruct (exec_emits _ _ (with_inflight rest s) (Hp r)) as (_ & _ & H3 & _ & H5).
    unfold answering. rewrite H3, H5. auto.
  - destruct (readyState s); auto.
Qed.

Lemma steps_healthy (env : ProcessEnv) (evs : list Event) :
  forall s, crashed s = None -> answering s ->
  crashed (steps env s evs) = None /\ answering (steps env s evs).
Proof.
  induction evs as [ | ev evs IH]; cbn; intros s Hc Ha; [auto | ].
  destruct (step_healthy env s ev Hc Ha). now apply IH.
Qed.

Lemma connect_healthy : crashed connect = None /\ answering connect.
Proof. split; [reflexivity | constructor]. Qed.

(** What the settling of a parked call does to an open connection. *)
Lemma settle_step (env : ProcessEnv) (s : Session) (id : nat) (r : Settled) :
  crashed s = None -> answering s -> readyState s = OPEN ->
  In id (pending_ids s) ->
  let s' := step env s (Settles id r) in
  outbox s' = outbox s ++ [text_frame (answer_of r)] /\
  readyState s' = OPEN /\
  (forall j, j <> id -> In j (pending_ids s) -> In j (pending_ids s')).
Proof.
  intros Hc Ha Ho Hin. unfold step. rewrite Hc.
  destruct (take_some id _ Hin) as (p & rest & Ht). rewrite Ht.
  destruct (take_Forall _ id _ p rest Ht Ha) as [Hp _].
  destruct (exec_emits _ _ (with_inflight rest s) (Hp r)) as (H1 & H2 & H3 & _ & _).
  cbn in H1, H2. rewrite Ho in *. repeat split; try assumption.
  intros j Hj Hjin. unfold pending_ids. rewrite H3. cbn.
  now apply (take_others id _ p rest Ht).
Qed.

(** What a prompt frame does to an open connection when an endpoint is
    configured: the handler logs and is parked on a fresh call. *)
Lemma prompt_step (env : ProcessEnv) (s : Session) (message : Value) :
  truthy (getenv env "LANGFLOW_URL") = true ->
  crashed s = None -> readyState s = OPEN ->
  kind message === "prompt" = true ->
  let s' := step env s (Message (Parses message)) in
  exists p,
    inflight s' = inflight s ++ [p] /\
    call_id p = next_id s /\
    next_id s' = S (next_id s) /\
    outbox s' = outbox s /\
    readyState s' = OPEN /\
    crashed s' = None.
Proof.
  intros Hurl Hc Ho Hk.
  destruct (kind_is_object _ _ Hk) as (props & -> & Ht).
  unfold step. rewrite Hc, Ho.
  unfold on_message, callLangflowAgent. cbn. rewrite Ht, Hurl. cbn.
  eexists. repeat split; auto.
Qed.

(** What a setup frame does: two lines on the console, nothing else. *)
Lemma setup_step (env : ProcessEnv) (s : Session) (message : Value) :
  kind message === "setup" = true ->
  outbox (step env s (Message (Parses message))) = outbox s.
Proof.
  intros Hk. destruct (kind_is_object _ _ Hk) as (props & -> & Ht).
  unfold step. destruct (crashed s); [reflexivity | ].
  destruct (readyState s); [ | reflexivity].
  unfold on_message. cbn. rewrite Ht. reflexivity.
Qed.

(** ** Call identifiers *)

Lemma take_NoDup (id : nat) (ps : list Pending) :
  forall p rest, take id ps = Some (p, rest) ->
  NoDup (map call_id ps) -> NoDup (map call_id rest).
Proof.
  induction ps as [ | q ps IH]; cbn; intros p rest H Hnd; [discriminate | ].
  inversion Hnd as [ | ? ? Hq Hps]; subst.
  destruct (Nat.eqb_spec (call_id q) id) as [Heq | Hne].
  - injection H as <- <-. assumption.
  - destruct (take id ps) as [[p' rest'] | ] eqn:Ht; [ | discriminate].
    injection H as <- <-. cbn. constructor.
    + intros Hin. apply Hq.
      clear - Ht Hin. revert p' rest' Ht Hin.
      induction ps as [ | a ps IHps]; cbn; intros p' rest' Ht Hin; [discriminate | ].
      destruct (Nat.eqb (call_id a) id).
      * injection Ht as <- <-. now right.
      * destruct (take id ps) as [[p2 rest2] | ]; [ | discriminate].
        injection Ht as <- <-. cbn in Hin. destruct Hin as [Ha | Hin]; [now left | right].
        now apply (IHps p2 rest2).
    + now apply (IH p' rest').
Qed.

Lemma turn_distinct_ids (p : Prog unit) :
  turn p -> forall s, distinct_ids s -> distinct_ids (exec p s).
Proof.
  unfold distinct_ids, pending_ids.
  induction 1 as [p Hp | p Hp | call k Hk | line k Hk IH]; intros s [Hlt Hnd].
  - destruct (exec_emits p _ s Hp) as (_ & _ & H3 & H4 & _). now rewrite H3, H4.
  - destruct (exec_emits p _ s Hp) as (_ & _ & H3 & H4 & _). now rewrite H3, H4.
  - cbn. split.
    + apply Forall_app. split.
      * eapply Forall_impl; [ | exact Hlt]. cbn. intros a Ha. lia.
      * repeat constructor.
    + rewrite map_app. cbn. apply NoDup_app; [exact Hnd | repeat constructor; intros [] | ].
      intros a Ha [<- | []]. rewrite Forall_forall in Hlt.
      apply in_map_iff in Ha as (q & Hq & Hin). specialize (Hlt q Hin). lia.
  - cbn. now apply IH.
Qed.

(** On a connection every outstanding call has an identifier of its own. *)
Lemma pending_ids_distinct (env : ProcessEnv) (evs : list Event) :
  NoDup (pending_ids (steps env connect evs)).
Proof.
  enough (H : forall s, crashed s = None /\ answering s -> distinct_ids s ->
                        distinct_ids (steps env s evs)).
  { apply H; [apply connect_healthy | ]. split; constructor. }
  induction evs as [ | ev evs IH]; intros s [Hc Ha] Hd; [exact Hd | ].
  cbn. apply IH; [now apply step_healthy | ].
  unfold step. rewrite Hc. destruct ev as [data | id r | ].
  - destruct (readyState s); [ | exact Hd].
    apply turn_distinct_ids; [apply turn_on_message | exact Hd].
  - destruct (take id (inflight s)) as [[p rest] | ] eqn:Ht; [ | exact Hd].
    destruct (take_Forall _ id _ p rest Ht Ha) as [Hp _].
    destruct Hd as [Hlt Hnd].
    destruct (exec_emits _ _ (with_inflight rest s) (Hp r)) as (_ & _ & H3 & H4 & _).
    unfold distinct_ids, pending_ids. rewrite H3, H4. cbn. split.
    + now apply (take_Forall _ id _ p rest Ht Hlt).
    + now apply (take_NoDup id _ p rest Ht).
  - destruct (readyState s); exact Hd.
Qed.

(** * The claims *)

(** ** C1 *)

(** C1. A prompt frame whose agent call succeeds (an endpoint is configured
    and the HTTP call is fulfilled with [response]) makes the handler send
    exactly one frame: [{type:'text', token, last:true, interruptible:true}]
    where [token] is the reply text [callLangflowAgent] returned for the
    frame's [voicePrompt], the text extracted from [response]; the handler
    ends without an exception.  On a connection, in whatever open state
    the frame arrives: nothing is sent when the frame is taken in, and that
    one frame is added when its call is fulfilled. *)
Theorem prompt_success_sends_one_text_frame
    (env : ProcessEnv) (message : Value) (b : Backend) (t : nat) (response : AxiosResponse) :
  kind message === "prompt" = true ->
  truthy (getenv env "LANGFLOW_URL") = true ->
  untimed b = Some (t, Fulfilled response) ->
  returned (ask env (member message "voicePrompt") b) = Some (inl (extract_reply response)) /\
  option_map sent (run b (on_message env (Parses message))) =
    Some [JSON_stringify (Obj [("type", Str "text");
                               ("token", extract_reply response);
                               ("last", Bool true);
                               ("interruptible", Bool true)])] /\
  option_map result (run b (on_message env (Parses message))) = Some (inl tt) /\
  (forall evs,
      readyState (steps env connect evs) = OPEN ->
      outbox (step env (steps env connect evs) (Message (Parses message))) =
        outbox (steps env connect evs) /\
      outbox (steps env (steps env connect evs)
                [Message (Parses message);
                 Settles (next_id (steps env connect evs)) (Fulfilled response)]) =
        outbox (steps env connect evs) ++ [text_frame (extract_reply response)]).
Proof.
  intros Hk Hurl Hb. split; [ | split; [ | split]].
  - unfold returned. rewrite (ask_returns env _ b Hurl), Hb. reflexivity.
  - destruct (kind_is_object _ _ Hk) as (props & -> & Ht).
    unfold on_message, callLangflowAgent. cbn. rewrite Ht, Hurl. cbn.
    rewrite Hb. reflexivity.
  - destruct (kind_is_object _ _ Hk) as (props & -> & Ht).
    unfold on_message, callLangflowAgent. cbn. rewrite Ht, Hurl. cbn.
    rewrite Hb. reflexivity.
  - intros evs Ho.
    destruct (steps_healthy env evs connect) as [Hc Ha]; try apply connect_healthy.
    set (s := steps env connect evs) in *.
    destruct (prompt_step env s message Hurl Hc Ho Hk)
      as (p & Hin & Hid & _ & Hout & Ho' & Hc').
    split; [exact Hout | ].
    destruct (step_healthy env s (Message (Parses message)) Hc Ha) as [_ Ha'].
    cbn [steps fold_left].
    destruct (settle_step env _ (next_id s) (Fulfilled response) Hc' Ha' Ho')
      as (Hsent & _ & _).
    + unfold pending_ids. rewrite Hin, map_app, <- Hid. apply in_or_app. right. now left.
    + cbn zeta in Hsent. rewrite Hsent, Hout. reflexivity.
Qed.

Lemma prompt_success_sends_one_text_frame_witness :
  returned (ask configured (Str "What time is the keynote?")
              (replies 800 (Obj [("message", Str "10:30 AM")])))
    = Some (inl (Str "10:30 AM")) /\
  option_map sent (run (replies 800 (Obj [("message", Str "10:30 AM")]))
                       (on_message configured
                          (Parses (prompt_frame "What time is the keynote?")))) =
    Some [JSON_stringify (Obj [("type", Str "text");
                               ("token", Str "10:30 AM");
                               ("last", Bool true);
                               ("interruptible", Bool true)])] /\
  option_map result (run (replies 800 (Obj [("message", Str "10:30 AM")]))
                         (on_message configured
                            (Parses (prompt_frame "What time is the keynote?")))) =
    Some (inl tt) /\
  (forall evs,
      readyState (steps configured connect evs) = OPEN ->
      outbox (step configured (steps configured connect evs)
                (Message (Parses (prompt_frame "What time is the keynote?")))) =
        outbox (steps configured connect evs) /\
      outbox (steps configured (steps configured connect evs)
                [Message (Parses (prompt_frame "What time is the keynote?"));
                 Settles (next_id (steps configured connect evs))
                         (Fulfilled (message_response "10:30 AM"))]) =
        outbox (steps configured connect evs) ++ [text_frame (Str "10:30 AM")]).
Proof.
  apply (prompt_success_sends_one_text_frame configured
           (prompt_frame "What time is the keynote?")
           (replies 800 (Obj [("message", Str "10:30 AM")]))
           800 (message_response "10:30 AM")); reflexivity.
Defined.

(** ** C2 *)

(** C2, as the code has it.  When the agent call fails by rejection or is
    never made (no endpoint configured, a network error such as an
    unreachable endpoint or a transport time-out, a status outside
    200-299), [callLangflowAgent] returns the fixed apology text and no
    exception reaches its caller; a prompt handler then sends the apology
    as its one frame and ends normally, and no event sequence on a
    connection leaves an uncaught exception. *)
Theorem failed_call_returns_apology
    (env : ProcessEnv) (userMessage : Value) (b : Backend) :
  call_fails env b = true ->
  (exists r, ask env userMessage b = Some r /\ result r = inl (Str APOLOGY)) /\
  (forall message,
      kind message === "prompt" = true ->
      member message "voicePrompt" = userMessage ->
      exists r, run b (on_message env (Parses message)) = Some r /\
                sent r = [text_frame (Str APOLOGY)] /\ result r = inl tt) /\
  (forall evs, crashed (steps env connect evs) = None).
Proof.
  intros Hf. unfold call_fails in Hf.
  destruct (truthy (getenv env "LANGFLOW_URL")) eqn:Hurl; cbn in Hf.
  - destruct (untimed b) as [[t [response | reason]] | ] eqn:Hb; try discriminate.
    repeat split.
    + unfold ask, callLangflowAgent. rewrite Hurl. cbn. rewrite Hb. cbn. eauto.
    + intros message Hk <-.
      destruct (kind_is_object _ _ Hk) as (props & -> & Ht).
      unfold on_message, callLangflowAgent. cbn. rewrite Ht, Hurl. cbn.
      rewrite Hb. cbn. eauto.
    + intros evs. apply steps_healthy; apply connect_healthy.
  - repeat split.
    + unfold ask, callLangflowAgent. rewrite Hurl. cbn. eauto.
    + intros message Hk <-.
      destruct (kind_is_object _ _ Hk) as (props & -> & Ht).
      unfold on_message, callLangflowAgent. cbn. rewrite Ht, Hurl. cbn. eauto.
    + intros evs. apply steps_healthy; apply connect_healthy.
Qed.

Lemma failed_call_returns_apology_witness :
  (exists r, ask configured (Str "Where is the main hall?")
               (Responds 40 500 (Unparsable "Internal Server Error")) = Some r /\
             result r = inl (Str APOLOGY)) /\
  (forall message,
      kind message === "prompt" = true ->
      member message "voicePrompt" = Str "Where is the main hall?" ->
      exists r, run (Responds 40 500 (Unparsable "Internal Server Error"))
                    (on_message configured (Parses message)) = Some r /\
                sent r = [text_frame (Str APOLOGY)] /\ result r = inl tt) /\
  (forall evs, crashed (steps configured connect evs) = None).
Proof.
  apply (failed_call_returns_apology configured (Str "Where is the main hall?")
           (Responds 40 500 (Unparsable "Internal Server Error"))).
  reflexivity.
Defined.

(** C2 does not hold for a malformed response body: axios leaves a body
    that is not JSON in [data] as a string and fulfils the promise, so
    nothing is caught and the reply is the other fixed text. *)
Lemma malformed_body_is_not_an_apology :
  returned (ask configured (Str "Where is the main hall?")
              (Responds 40 200 (Unparsable "<html>Bad gateway</html>")))
    = Some (inl (Str DIDNT_UNDERSTAND)) /\
  returned (ask configured (Str "Where is the main hall?")
              (Responds 40 200 (Unparsable "<html>Bad gateway</html>")))
    <> Some (inl (Str APOLOGY)).
Proof. split; [reflexivity | discriminate]. Qed.

(** ** C3 *)

(** C3, as the code has it.  Against a configured endpoint that answers
    with a success status: for a non-empty string X the body
    [{outputs:[{outputs:[{results:{message:{text:X}}}]}]}] gives exactly X;
    for a non-empty string Y the body [{message:Y}] gives Y; the empty body
    [{}], and every body in which both places are absent, gives the fixed
    text for a reply that was not understood. *)
Theorem reply_chain
    (env : ProcessEnv) (userMessage : Value) (t : nat) (X Y : string) :
  truthy (getenv env "LANGFLOW_URL") = true ->
  X <> ""%string ->
  Y <> ""%string ->
  returned (ask env userMessage (replies t (nested_body (Str X)))) = Some (inl (Str X)) /\
  returned (ask env userMessage (replies t (Obj [("message", Str Y)]))) = Some (inl (Str Y)) /\
  returned (ask env userMessage (replies t (Obj []))) = Some (inl (Str DIDNT_UNDERSTAND)) /\
  (forall d, nested_text d = Undefined -> top_message d = Undefined ->
             returned (ask env userMessage (replies t d)) = Some (inl (Str DIDNT_UNDERSTAND))).
Proof.
  intros Hurl HX HY. rewrite !ask_replies by assumption. repeat split.
  - rewrite extract_reply_nested; cbn [data]; rewrite nested_text_nested_body;
      [reflexivity | now apply truthy_Str_nonempty].
  - rewrite extract_reply_message;
      [reflexivity | reflexivity | now apply truthy_Str_nonempty].
  - intros d Hn Hm. rewrite ask_replies by assumption.
    rewrite extract_reply_default; cbn [data]; [reflexivity | now rewrite Hn | now rewrite Hm].
Qed.

Lemma reply_chain_witness :
  returned (ask configured (Str "hello") (replies 120 (nested_body (Str "X")))) =
    Some (inl (Str "X")) /\
  returned (ask configured (Str "hello") (replies 120 (Obj [("message", Str "Y")]))) =
    Some (inl (Str "Y")) /\
  returned (ask configured (Str "hello") (replies 120 (Obj []))) =
    Some (inl (Str DIDNT_UNDERSTAND)) /\
  (forall d, nested_text d = Undefined -> top_message d = Undefined ->
             returned (ask configured (Str "hello") (replies 120 d)) =
               Some (inl (Str DIDNT_UNDERSTAND))).
Proof.
  apply (reply_chain configured (Str "hello") 120 "X" "Y");
    [reflexivity | discriminate | discriminate].
Defined.

(** C3 does not hold for the empty string: the body whose nested text is
    the empty string does not give the empty string back. *)
Lemma empty_nested_text_is_not_returned :
  returned (ask configured (Str "hello") (replies 120 (nested_body (Str "")))) =
    Some (inl (Str DIDNT_UNDERSTAND)) /\
  returned (ask configured (Str "hello") (replies 120 (nested_body (Str "")))) <>
    Some (inl (Str "")).
Proof. split; [reflexivity | discriminate]. Qed.

(** ** C10 *)

(** C10, as the code has it.  When the nested result text is the empty
    string and the top-level message holds nothing truthy, or the top-level
    message is the empty string and the nested result text holds nothing
    truthy, [callLangflowAgent] returns the fixed text for a reply that was
    not understood, not the empty string. *)
Theorem empty_reply_falls_back
    (env : ProcessEnv) (userMessage : Value) (t : nat) (d : Value) :
  truthy (getenv env "LANGFLOW_URL") = true ->
  (nested_text d = Str "" /\ truthy (top_message d) = false) \/
  (top_message d = Str "" /\ truthy (nested_text d) = false) ->
  returned (ask env userMessage (replies t d)) = Some (inl (Str DIDNT_UNDERSTAND)).
Proof.
  intros Hurl H. rewrite ask_replies by assumption.
  rewrite extract_reply_default; cbn [data]; [reflexivity | | ].
  - destruct H as [[-> _] | [_ Hn]]; [reflexivity | assumption].
  - destruct H as [[_ Hm] | [-> _]]; [assumption | reflexivity].
Qed.

Lemma empty_reply_falls_back_witness :
  returned (ask configured (Str "hello") (replies 120 (nested_body (Str "")))) =
    Some (inl (Str DIDNT_UNDERSTAND)).
Proof.
  apply (empty_reply_falls_back configured (Str "hello") 120 (nested_body (Str ""))).
  - reflexivity.
  - left. split; reflexivity.
Defined.

(** C10 does not hold when the other place has a text: an empty nested
    text next to a top-level message gives that message. *)
Lemma empty_text_next_to_a_message :
  nested_text empty_text_with_message = Str "" /\
  returned (ask configured (Str "hello") (replies 120 empty_text_with_message)) =
    Some (inl (Str "10:30 AM")) /\
  returned (ask configured (Str "hello") (replies 120 empty_text_with_message)) <>
    Some (inl (Str DIDNT_UNDERSTAND)).
Proof. split; [reflexivity | split; [reflexivity | discriminate]]. Qed.

(** The principle behind C10: an empty string in one place is passed over
    exactly as an absent value is, and is never the reply. *)
Lemma empty_string_is_passed_over (response : AxiosResponse) :
  (nested_text (data response) = Str "" ->
   extract_reply response = top_message (data response) <||> Str DIDNT_UNDERSTAND) /\
  (top_message (data response) = Str "" ->
   extract_reply response = nested_text (data response) <||> Str DIDNT_UNDERSTAND) /\
  extract_reply response <> Str "".
Proof.
  rewrite extract_reply_chain. repeat split.
  - intros ->. reflexivity.
  - intros ->. unfold or_else.
    destruct (truthy (nested_text (data response))) eqn:Hn; cbn; now rewrite ?Hn.
  - intros H. pose proof (extract_reply_truthy response) as Ht.
    rewrite extract_reply_chain, H in Ht. discriminate.
Qed.

(** ** C8 *)

(** C8, as the code has it.  [callLangflowAgent] passes no [timeout] to
    axios: against a configured endpoint, [ask] completes exactly when the
    endpoint answers or the network fails, however long that takes, and
    never completes when the endpoint stays silent. *)
Theorem ask_waits_for_the_endpoint (env : ProcessEnv) (userMessage : Value) :
  truthy (getenv env "LANGFLOW_URL") = true ->
  (forall t code, option_map elapsed (ask env userMessage (NetworkError t code)) = Some t) /\
  (forall t st body, option_map elapsed (ask env userMessage (Responds t st body)) = Some t) /\
  ask env userMessage Silent = None.
Proof.
  intros Hurl. repeat split.
  - intros t code. now rewrite (ask_elapsed env _ _ Hurl).
  - intros t st body. rewrite (ask_elapsed env _ _ Hurl). cbn.
    now destruct (validateStatus st).
  - unfold ask, callLangflowAgent. rewrite Hurl. reflexivity.
Qed.

Lemma ask_waits_for_the_endpoint_witness :
  (forall t code,
      option_map elapsed (ask configured (Str "hello") (NetworkError t code)) = Some t) /\
  (forall t st body,
      option_map elapsed (ask configured (Str "hello") (Responds t st body)) = Some t) /\
  ask configured (Str "hello") Silent = None.
Proof.
  apply (ask_waits_for_the_endpoint configured (Str "hello")). reflexivity.
Defined.

(** C8 does not hold: no deadline bounds every invocation of [ask]; a
    silent endpoint keeps it waiting for ever. *)
Lemma no_deadline_bounds_ask :
  ask configured (Str "hello") Silent = None /\
  ~ exists deadline : nat,
      forall b : Backend,
        exists r, ask configured (Str "hello") b = Some r /\ elapsed r <= deadline.
Proof.
  split; [reflexivity | ].
  intros [deadline H]. destruct (H Silent) as (r & Hr & _). discriminate.
Qed.

(** What the option the source leaves out would give: with a positive
    [timeout], axios settles every call within it. *)
Lemma settle_within_timeout (call : AxiosCall) (b : Backend) (d : nat) :
  timeout (config call) = Some (S d) ->
  exists t r, settle call b = Some (t, r) /\ t <= S d.
Proof.
  intros Ht. unfold settle. rewrite Ht.
  destruct (untimed b) as [[t r] | ].
  - destruct (Nat.leb_spec t (S d)).
    + exists t, r. auto.
    + eexists _, _. split; [reflexivity | cbn; lia].
  - eexists _, _. split; [reflexivity | cbn; lia].
Qed.

(** ** C9 *)

(** C9. For a call event with Host header h, the [/voice] webhook answers
    with a TwiML document whose [<ConversationRelay>] has the relay address
    [wss://h/websocket], the fixed greeting and the language [en-US]; and
    whatever the request, even with no Host header, the document is built
    and carries the three attributes. *)
Theorem voice_descriptor :
  (forall h : string,
      relay_attribute "url" (voice {| host := Some h |}) =
        Some ("wss://" ++ h ++ "/websocket")%string /\
      relay_attribute "welcomeGreeting" (voice {| host := Some h |}) =
        Some "Hello! I'm P, the event MC. How can I help you today?"%string /\
      relay_attribute "language" (voice {| host := Some h |}) = Some "en-US"%string) /\
  (forall req : HttpRequest,
      content_type (voice req) = "text/xml"%string /\
      (exists address, relay_attribute "url" (voice req) = Some address) /\
      relay_attribute "welcomeGreeting" (voice req) = Some GREETING /\
      relay_attribute "language" (voice req) = Some "en-US"%string).
Proof.
  split.
  - intros h. repeat split.
  - intros req. repeat split. eexists. reflexivity.
Qed.

(** ** C4 *)

(** C4. On an open connection, a frame that does not parse as JSON, or
    whose kind is none of setup, prompt and interrupt (or that has no kind
    at all), is logged and dropped: the console gets at least one more
    line, nothing is sent, no handler is parked, no exception escapes and
    the connection stays open. *)
Theorem unrecognised_frame_is_dropped (env : ProcessEnv) (s : Session) (data : Text) :
  crashed s = None ->
  readyState s = OPEN ->
  recognised data = false ->
  let s' := step env s (Message data) in
  outbox s' = outbox s /\
  inflight s' = inflight s /\
  crashed s' = None /\
  readyState s' = OPEN /\
  exists line more, console s' = console s ++ line :: more.
Proof.
  intros Hc Ho Hr. unfold step. rewrite Hc, Ho.
  destruct data as [message | raw].
  - cbn in Hr. apply orb_false_elim in Hr as [Hr Hi].
    apply orb_false_elim in Hr as [Hs Hp].
    unfold on_message.
    destruct message as [ | | b | x | t | items | props];
      try (cbn; repeat split; try assumption;
           eexists _, _; rewrite <- app_assoc; reflexivity).
    unfold kind in *. cbn in Hs, Hp, Hi. cbn. rewrite Hs, Hp, Hi. cbn.
    repeat split; try assumption.
    eexists _, _. rewrite <- app_assoc. reflexivity.
  - cbn. repeat split; try assumption. eexists _, _. reflexivity.
Qed.

Lemma unrecognised_frame_is_dropped_witness :
  let s' := step configured connect (Message (Unparsable "{type:")) in
  outbox s' = outbox connect /\
  inflight s' = inflight connect /\
  crashed s' = None /\
  readyState s' = OPEN /\
  exists line more, console s' = console connect ++ line :: more.
Proof.
  apply (unrecognised_frame_is_dropped configured connect (Unparsable "{type:"));
    reflexivity.
Defined.

(** ** C7 *)

(** C7. Setup frames never put anything on the outbound channel: whatever
    the state of the session, and however many setup frames are processed
    one after the other, the frames sent so far stay as they were. *)
Theorem setup_sends_nothing (env : ProcessEnv) (frames : list Value) :
  Forall (fun message => kind message === "setup" = true) frames ->
  forall s : Session, outbox (steps env s (frames_of frames)) = outbox s.
Proof.
  induction 1 as [ | message frames Hk _ IH]; intros s; [reflexivity | ].
  unfold steps, frames_of in *. cbn [map fold_left].
  rewrite IH. now apply setup_step.
Qed.

Lemma setup_sends_nothing_witness :
  outbox (steps configured connect
            (frames_of [setup_frame "CA01"; setup_frame "CA01"; setup_frame "CA01"])) =
  outbox connect.
Proof.
  apply (setup_sends_nothing configured
           [setup_frame "CA01"; setup_frame "CA01"; setup_frame "CA01"]).
  repeat constructor.
Defined.

(** ** C5 *)

(** C5, as the code has it.  The session neither queues nor supersedes:
    with an endpoint configured, every prompt frame accepted on an open
    connection starts its own agent call at once, next to the calls that
    are already outstanding, which stay as they are; after n prompt frames
    in a row there are n more calls outstanding and nothing has been
    sent. *)
Theorem each_prompt_starts_a_call (env : ProcessEnv) (messages : list Value) :
  truthy (getenv env "LANGFLOW_URL") = true ->
  Forall (fun message => kind message === "prompt" = true) messages ->
  forall s : Session,
    crashed s = None ->
    readyState s = OPEN ->
    let s' := steps env s (frames_of messages) in
    (exists started, inflight s' = inflight s ++ started /\
                     length started = length messages) /\
    outbox s' = outbox s.
Proof.
  intros Hurl Hall.
  induction Hall as [ | message messages Hk _ IH]; intros s Hc Ho.
  - cbn. split; [exists []; now rewrite app_nil_r | reflexivity].
  - destruct (prompt_step env s message Hurl Hc Ho Hk)
      as (p & Hin & _ & _ & Hout & Ho' & Hc').
    specialize (IH _ Hc' Ho'). cbn zeta in IH.
    destruct IH as [(started & Hs & Hlen) Hout'].
    unfold steps, frames_of in *. cbn [map fold_left]. split.
    + exists (p :: started). rewrite Hs, Hin, <- app_assoc. cbn. auto.
    + congruence.
Qed.

Lemma each_prompt_starts_a_call_witness :
  let s' := steps configured connect
              (frames_of [prompt_frame "What time is the keynote?";
                          prompt_frame "Where is the main hall?"]) in
  (exists started, inflight s' = inflight connect ++ started /\
                   length started = 2) /\
  outbox s' = outbox connect.
Proof.
  apply (each_prompt_starts_a_call configured
           [prompt_frame "What time is the keynote?";
            prompt_frame "Where is the main hall?"]);
    [reflexivity | repeat constructor | reflexivity | reflexivity].
Defined.

(** C5 does not hold: after two prompt frames two agent calls are
    outstanding at the same time. *)
Lemma two_calls_outstanding :
  pending_ids (steps configured connect two_prompts) = [0; 1] /\
  ~ (forall evs, length (inflight (steps configured connect evs)) <= 1).
Proof.
  split; [reflexivity | ].
  intros H. specialize (H two_prompts). cbn in H. lia.
Qed.

(** ** C6 *)

Lemma settlements_append (env : ProcessEnv) (l : list (nat * Settled)) :
  forall s : Session,
    crashed s = None -> answering s -> readyState s = OPEN ->
    NoDup (map fst l) ->
    (forall id, In id (map fst l) -> In id (pending_ids s)) ->
    outbox (steps env s (settlements l)) =
    outbox s ++ map (fun ir => text_frame (answer_of (snd ir))) l.
Proof.
  induction l as [ | [id r] l IH]; intros s Hc Ha Ho Hnd Hin.
  - cbn. now rewrite app_nil_r.
  - inversion Hnd as [ | ? ? Hfresh Hnd']; subst.
    assert (Hid : In id (pending_ids s)) by (apply Hin; now left).
    destruct (settle_step env s id r Hc Ha Ho Hid) as (Hout & Ho' & Hkeep).
    destruct (step_healthy env s (Settles id r) Hc Ha) as [Hc' Ha'].
    unfold steps, settlements in *. cbn [map fold_left fst snd].
    rewrite IH; try assumption.
    + rewrite Hout, <- app_assoc. reflexivity.
    + intros j Hj. apply Hkeep.
      * intros ->. contradiction.
      * apply Hin. now right.
Qed.

(** C6, as the code has it.  Replies leave in the order in which the agent
    calls settle, not in the order in which the utterances were accepted:
    on an open connection, when outstanding calls settle one after the
    other, in whatever order, the frames sent are exactly their answers in
    that order. *)
Theorem replies_follow_settlement
    (env : ProcessEnv) (evs : list Event) (l : list (nat * Settled)) :
  readyState (steps env connect evs) = OPEN ->
  NoDup (map fst l) ->
  (forall id, In id (map fst l) -> In id (pending_ids (steps env connect evs))) ->
  outbox (steps env (steps env connect evs) (settlements l)) =
  outbox (steps env connect evs) ++ map (fun ir => text_frame (answer_of (snd ir))) l.
Proof.
  intros Ho Hnd Hin.
  destruct (steps_healthy env evs connect) as [Hc Ha]; try apply connect_healthy.
  now apply settlements_append.
Qed.

Lemma replies_follow_settlement_witness :
  outbox (steps configured (steps configured connect two_prompts)
            (settlements second_answered_first)) =
  outbox (steps configured connect two_prompts) ++
  map (fun ir => text_frame (answer_of (snd ir))) second_answered_first.
Proof.
  apply (replies_follow_settlement configured two_prompts second_answered_first).
  - reflexivity.
  - repeat constructor; cbn; intuition discriminate.
  - cbn. intuition.
Defined.

(** C6 does not hold: the first utterance is call 0 and the second call 1;
    when call 1 settles first, the reply to the second utterance is sent
    before the reply to the first. *)
Lemma later_prompt_answered_first :
  map (fun p => (call_id p, member (body (request p)) "input_value"))
      (inflight (steps configured connect two_prompts)) =
    [(0, Str "What time is the keynote?"); (1, Str "Where is the main hall?")] /\
  outbox (steps configured connect (two_prompts ++ settlements second_answered_first)) =
    [text_frame (Str "On the ground floor"); text_frame (Str "10:30 AM")].
Proof. split; reflexivity. Qed.

(** * Further properties of server.js *)

(** ** What a frame does to a connection *)

(** With an endpoint configured, the handler of a prompt frame is parked
    on a call whose request is built from the frame and the environment. *)
Lemma prompt_parks_request (env : ProcessEnv) (s : Session) (message : Value) :
  truthy (getenv env "LANGFLOW_URL") = true ->
  crashed s = None -> readyState s = OPEN ->
  kind message === "prompt" = true ->
  exists p,
    inflight (step env s (Message (Parses message))) = inflight s ++ [p] /\
    outbox (step env s (Message (Parses message))) = outbox s /\
    url (request p) = getenv env "LANGFLOW_URL" /\
    body (request p) = Obj [("input_value", member message "voicePrompt");
                            ("output_type", Str "chat");
                            ("input_type", Str "chat")] /\
    timeout (config (request p)) = None /\
    request_header p "Content-Type" = Str "application/json" /\
    request_header p "Authorization" =
      (if truthy (getenv env "LANGFLOW_API_KEY")
       then Str ("Bearer " ++ interpolate (getenv env "LANGFLOW_API_KEY"))
       else Undefined).
Proof.
  intros Hurl Hc Ho Hk.
  destruct (kind_is_object _ _ Hk) as (props & -> & Ht).
  unfold step. rewrite Hc, Ho.
  unfold on_message, callLangflowAgent. cbn. rewrite Ht, Hurl. cbn.
  eexists. split; [reflexivity | ]. cbn. unfold request_header. cbn.
  repeat split;
    destruct (truthy (getenv env "LANGFLOW_API_KEY")); reflexivity.
Qed.

(** With no endpoint configured, the handler of a prompt frame runs to its
    end at once: the apology is sent and nothing is parked. *)
Lemma prompt_step_unconfigured (env : ProcessEnv) (s : Session) (message : Value) :
  truthy (getenv env "LANGFLOW_URL") = false ->
  crashed s = None -> readyState s = OPEN ->
  kind message === "prompt" = true ->
  inflight (step env s (Message (Parses message))) = inflight s /\
  outbox (step env s (Message (Parses message))) = outbox s ++ [text_frame (Str APOLOGY)] /\
  readyState (step env s (Message (Parses message))) = OPEN.
Proof.
  intros Hurl Hc Ho Hk.
  destruct (kind_is_object _ _ Hk) as (props & -> & Ht).
  unfold step. rewrite Hc, Ho.
  unfold on_message, callLangflowAgent. cbn. rewrite Ht, Hurl. cbn.
  unfold write. cbn. rewrite Ho. cbn. auto.
Qed.

(** A frame that is not a prompt only writes to the console. *)
Lemma other_frame_step (env : ProcessEnv) (s : Session) (data : Text) :
  is_prompt data = false ->
  inflight (step env s (Message data)) = inflight s /\
  outbox (step env s (Message data)) = outbox s /\
  readyState (step env s (Message data)) = readyState s.
Proof.
  intros Hp. unfold step.
  destruct (crashed s); [auto | ].
  destruct (readyState s) eqn:Ho; [ | auto].
  destruct data as [message | raw]; [ | cbn; auto].
  unfold on_message.
  destruct message as [ | | b | x | t | items | props]; try (cbn; auto).
  cbn in Hp. unfold kind in Hp. cbn in Hp. rewrite Hp.
  destruct (lookup "type" props === "setup"); [cbn; auto | ].
  destruct (lookup "type" props === "interrupt"); cbn; auto.
Qed.

(** ** The request sent to the agent *)

(** X1. With an endpoint configured, a prompt frame taken in on an open
    connection starts one POST to the address in [LANGFLOW_URL] whose body
    is [{input_value, output_type:'chat', input_type:'chat'}], with
    [input_value] the frame's [voicePrompt] as it came ([undefined] when
    the frame has none), and with no [timeout] option. *)
Theorem utterance_is_forwarded_verbatim
    (env : ProcessEnv) (s : Session) (message : Value) :
  truthy (getenv env "LANGFLOW_URL") = true ->
  crashed s = None ->
  readyState s = OPEN ->
  kind message === "prompt" = true ->
  exists p,
    inflight (step env s (Message (Parses message))) = inflight s ++ [p] /\
    url (request p) = getenv env "LANGFLOW_URL" /\
    member (body (request p)) "input_value" = member message "voicePrompt" /\
    member (body (request p)) "output_type" = Str "chat" /\
    member (body (request p)) "input_type" = Str "chat" /\
    timeout (config (request p)) = None.
Proof.
  intros Hurl Hc Ho Hk.
  destruct (prompt_parks_request env s message Hurl Hc Ho Hk)
    as (p & Hin & _ & Hu & Hb & Ht & _).
  exists p. rewrite Hb. repeat split; assumption.
Qed.

Lemma utterance_is_forwarded_verbatim_witness :
  exists p,
    inflight (step configured connect (Message (Parses (Obj [("type", Str "prompt")])))) =
      inflight connect ++ [p] /\
    url (request p) = getenv configured "LANGFLOW_URL" /\
    member (body (request p)) "input_value" = member (Obj [("type", Str "prompt")]) "voicePrompt" /\
    member (body (request p)) "output_type" = Str "chat" /\
    member (body (request p)) "input_type" = Str "chat" /\
    timeout (config (request p)) = None.
Proof.
  apply (utterance_is_forwarded_verbatim configured connect (Obj [("type", Str "prompt")]));
    reflexivity.
Defined.

(** X2. The request always carries [Content-Type: application/json]; it
    carries [Authorization: Bearer <key>] exactly when [LANGFLOW_API_KEY]
    is set to a non-empty string, and no Authorization header when the
    variable is unset or empty. *)
Theorem authorization_only_with_a_key
    (env : ProcessEnv) (s : Session) (message : Value) :
  truthy (getenv env "LANGFLOW_URL") = true ->
  crashed s = None ->
  readyState s = OPEN ->
  kind message === "prompt" = true ->
  exists p,
    inflight (step env s (Message (Parses message))) = inflight s ++ [p] /\
    request_header p "Content-Type" = Str "application/json" /\
    (forall key, getenv env "LANGFLOW_API_KEY" = Str key -> key <> ""%string ->
                 request_header p "Authorization" = Str ("Bearer " ++ key)) /\
    (getenv env "LANGFLOW_API_KEY" = Undefined \/ getenv env "LANGFLOW_API_KEY" = Str "" ->
     request_header p "Authorization" = Undefined).
Proof.
  intros Hurl Hc Ho Hk.
  destruct (prompt_parks_request env s message Hurl Hc Ho Hk)
    as (p & Hin & _ & _ & _ & _ & Hct & Hauth).
  exists p. repeat split; try assumption.
  - intros key Hkey Hne. rewrite Hauth, Hkey.
    now rewrite (truthy_Str_nonempty key Hne).
  - intros [Hkey | Hkey]; rewrite Hauth, Hkey; reflexivity.
Qed.

Lemma authorization_only_with_a_key_witness :
  exists p,
    inflight (step with_key connect
                (Message (Parses (prompt_frame "Where is the main hall?")))) =
      inflight connect ++ [p] /\
    request_header p "Content-Type" = Str "application/json" /\
    (forall key, getenv with_key "LANGFLOW_API_KEY" = Str key -> key <> ""%string ->
                 request_header p "Authorization" = Str ("Bearer " ++ key)) /\
    (getenv with_key "LANGFLOW_API_KEY" = Undefined \/
     getenv with_key "LANGFLOW_API_KEY" = Str "" ->
     request_header p "Authorization" = Undefined).
Proof.
  apply (authorization_only_with_a_key with_key connect
           (prompt_frame "Where is the main hall?")); reflexivity.
Defined.

(** ** No endpoint configured *)



(** ** What the agent client returns *)

Lemma answer_of_truthy (r : Settled) : truthy (answer_of r) = true.
Proof. destruct r as [response | reason]; [apply extract_reply_truthy | reflexivity]. Qed.

(** X4. Whenever [callLangflowAgent] returns, it returns a value, never
    an exception, and the value is never falsy: not [undefined], not
    [null], not the empty string. *)
Theorem ask_never_returns_nothing
    (env : ProcessEnv) (userMessage : Value) (b : Backend) (res : Value + Exn) :
  returned (ask env userMessage b) = Some res ->
  exists reply, res = inl reply /\ truthy reply = true.
Proof.
  unfold returned. intros Hr.
  destruct (truthy (getenv env "LANGFLOW_URL")) eqn:Hurl.
  - rewrite (ask_returns env userMessage b Hurl) in Hr.
    destruct (untimed b) as [[t s] | ]; [ | discriminate].
    injection Hr as <-. exists (answer_of s). split; [reflexivity | apply answer_of_truthy].
  - pose proof (ask_unconfigured env userMessage b Hurl) as H.
    destruct (ask env userMessage b) as [r | ]; [ | discriminate].
    cbn in Hr, H. injection H as _ _ H. injection Hr as <-.
    exists (Str APOLOGY). split; [assumption | reflexivity].
Qed.

Lemma ask_never_returns_nothing_witness :
  exists reply, inl (Str DIDNT_UNDERSTAND) = @inl Value Exn reply /\ truthy reply = true.
Proof.
  apply (ask_never_returns_nothing configured (Str "hello")
           (replies 120 (Obj [("message", Str "")]))).
  reflexivity.
Defined.

(** X5. The nested result comes first and is passed on as it is: when the
    value at [outputs[0].outputs[0].results.message.text] is truthy, it is
    returned whatever the top-level [message] holds and whatever its type
    (a number or an object is not turned into a string). *)
Theorem nested_result_wins
    (env : ProcessEnv) (userMessage : Value) (t : nat) (d : Value) :
  truthy (getenv env "LANGFLOW_URL") = true ->
  truthy (nested_text d) = true ->
  returned (ask env userMessage (replies t d)) = Some (inl (nested_text d)).
Proof.
  intros Hurl Hn. rewrite ask_replies by assumption.
  now rewrite extract_reply_nested.
Qed.

Lemma nested_result_wins_witness :
  returned (ask configured (Str "hello") (replies 120 rich_text_with_message)) =
    Some (inl (Obj [("markdown", Str "*10:30*")])).
Proof.
  apply (nested_result_wins configured (Str "hello") 120 rich_text_with_message);
    reflexivity.
Defined.

(** X6. A success response whose body is not a JSON object (text that is
    not JSON, or a JSON string, number, boolean, array or [null]) never
    throws in the extraction and gives the fixed text for a reply that was
    not understood. *)
Theorem non_object_body_is_not_understood
    (env : ProcessEnv) (userMessage : Value) (t st : nat) (body : Text) :
  truthy (getenv env "LANGFLOW_URL") = true ->
  validateStatus st = true ->
  is_object (transformResponse body) = false ->
  returned (ask env userMessage (Responds t st body)) = Some (inl (Str DIDNT_UNDERSTAND)).
Proof.
  intros Hurl Hst Hobj. unfold returned.
  rewrite (ask_returns env _ _ Hurl). cbn. rewrite Hst. cbn.
  destruct (transformResponse body); try discriminate; reflexivity.
Qed.

Lemma non_object_body_is_not_understood_witness :
  returned (ask configured (Str "hello")
              (Responds 30 201 (Parses (Arr [Obj [("message", Str "10:30 AM")]])))) =
    Some (inl (Str DIDNT_UNDERSTAND)).
Proof.
  apply (non_object_body_is_not_understood configured (Str "hello") 30 201
           (Parses (Arr [Obj [("message", Str "10:30 AM")]]))); reflexivity.
Defined.

(** ** Interruption and close *)

Lemma take_removes (id : nat) (ps : list Pending) :
  forall p rest, take id ps = Some (p, rest) ->
  NoDup (map call_id ps) ->
  call_id p = id /\ ~ In id (map call_id rest) /\ length ps = S (length rest).
Proof.
  induction ps as [ | q ps IH]; cbn; intros p rest H Hnd; [discriminate | ].
  inversion Hnd as [ | ? ? Hq Hps]; subst.
  destruct (Nat.eqb_spec (call_id q) id) as [Heq | Hne].
  - injection H as <- <-. subst id. auto.
  - destruct (take id ps) as [[p' rest'] | ] eqn:Ht; [ | discriminate].
    injection H as <- <-. destruct (IH p' rest' eq_refl Hps) as (H1 & H2 & H3).
    cbn. repeat split; [assumption | | now rewrite H3].
    intros [Hin | Hin]; [contradiction | contradiction].
Qed.

(** X7. An interrupt frame cancels nothing: on an open connection it
    leaves the outstanding calls and the frames sent so far as they are,
    and the reply of a call that was outstanding is still sent when that
    call settles afterwards. *)
Theorem interrupt_cancels_nothing
    (env : ProcessEnv) (evs : list Event) (message : Value) (id : nat) (r : Settled) :
  readyState (steps env connect evs) = OPEN ->
  kind message === "interrupt" = true ->
  In id (pending_ids (steps env connect evs)) ->
  inflight (step env (steps env connect evs) (Message (Parses message))) =
    inflight (steps env connect evs) /\
  outbox (step env (steps env connect evs) (Message (Parses message))) =
    outbox (steps env connect evs) /\
  outbox (steps env (steps env connect evs) [Message (Parses message); Settles id r]) =
    outbox (steps env connect evs) ++ [text_frame (answer_of r)].
Proof.
  intros Ho Hk Hin.
  destruct (steps_healthy env evs connect) as [Hc Ha]; try apply connect_healthy.
  set (s := steps env connect evs) in *.
  assert (Hp : is_prompt (Parses message) = false).
  { cbn. apply strict_eq_str_true in Hk. now rewrite Hk. }
  destruct (other_frame_step env s _ Hp) as (Hi & Hout & Hrs).
  destruct (step_healthy env s (Message (Parses message)) Hc Ha) as [Hc' Ha'].
  repeat split; try assumption.
  cbn [steps fold_left].
  destruct (settle_step env _ id r Hc' Ha') as (Hsent & _ & _).
  - now rewrite Hrs.
  - unfold pending_ids. now rewrite Hi.
  - cbn zeta in Hsent. now rewrite Hsent, Hout.
Qed.

Lemma interrupt_cancels_nothing_witness :
  inflight (step configured (steps configured connect two_prompts)
              (Message (Parses (Obj [("type", Str "interrupt")])))) =
    inflight (steps configured connect two_prompts) /\
  outbox (step configured (steps configured connect two_prompts)
            (Message (Parses (Obj [("type", Str "interrupt")])))) =
    outbox (steps configured connect two_prompts) /\
  outbox (steps configured (steps configured connect two_prompts)
            [Message (Parses (Obj [("type", Str "interrupt")]));
             Settles 0 (Fulfilled (message_response "10:30 AM"))]) =
    outbox (steps configured connect two_prompts) ++
    [text_frame (answer_of (Fulfilled (message_response "10:30 AM")))].
Proof.
  apply (interrupt_cancels_nothing configured two_prompts
           (Obj [("type", Str "interrupt")]) 0 (Fulfilled (message_response "10:30 AM")));
    [reflexivity | reflexivity | cbn; auto].
Defined.

(** X8. The close of the connection cancels no call either; when a call
    settles after the close its handler finishes quietly: nothing is
    sent, no exception escapes, and the call is no longer outstanding. *)
Theorem late_answer_is_discarded
    (env : ProcessEnv) (evs : list Event) (id : nat) (r : Settled) :
  In id (pending_ids (steps env connect evs)) ->
  pending_ids (step env (steps env connect evs) Close) =
    pending_ids (steps env connect evs) /\
  outbox (steps env (steps env connect evs) [Close; Settles id r]) =
    outbox (steps env connect evs) /\
  crashed (steps env (steps env connect evs) [Close; Settles id r]) = None /\
  ~ In id (pending_ids (steps env (steps env connect evs) [Close; Settles id r])).
Proof.
  intros Hin.
  destruct (steps_healthy env evs connect) as [Hc Ha]; try apply connect_healthy.
  pose proof (pending_ids_distinct env evs) as Hnd.
  set (s := steps env connect evs) in *.
  assert (Hclose : inflight (step env s Close) = inflight s /\
                   outbox (step env s Close) = outbox s /\
                   readyState (step env s Close) = CLOSED /\
                   crashed (step env s Close) = None).
  { unfold step. rewrite Hc. destruct (readyState s) eqn:Ho; cbn; auto. }
  destruct Hclose as (Hi & Hout & Hrs & Hc').
  split; [unfold pending_ids; now rewrite Hi | ].
  cbn [steps fold_left]. set (s1 := step env s Close) in *.
  destruct (take_some id (inflight s1)) as (p & rest & Ht).
  { rewrite Hi. exact Hin. }
  assert (Ha1 : answering s1) by (unfold answering; now rewrite Hi).
  destruct (take_Forall _ id _ p rest Ht Ha1) as [Hp _].
  destruct (exec_emits _ _ (with_inflight rest s1) (Hp r)) as (_ & H2 & H3 & _ & H5).
  cbn in H2, H5. rewrite Hrs in H2.
  assert (Hs2 : step env s1 (Settles id r) = exec (resume p r) (with_inflight rest s1))
    by (unfold step; now rewrite Hc', Ht).
  rewrite Hs2. repeat split.
  - now rewrite H2.
  - now rewrite H5.
  - unfold pending_ids. rewrite H3. cbn.
    apply (take_removes id (inflight s1) p rest Ht). now rewrite Hi.
Qed.

Lemma late_answer_is_discarded_witness :
  pending_ids (step configured (steps configured connect two_prompts) Close) =
    pending_ids (steps configured connect two_prompts) /\
  outbox (steps configured (steps configured connect two_prompts)
            [Close; Settles 1 (Fulfilled (message_response "On the ground floor"))]) =
    outbox (steps configured connect two_prompts) /\
  crashed (steps configured (steps configured connect two_prompts)
             [Close; Settles 1 (Fulfilled (message_response "On the ground floor"))]) = None /\
  ~ In 1 (pending_ids
            (steps configured (steps configured connect two_prompts)
               [Close; Settles 1 (Fulfilled (message_response "On the ground floor"))])).
Proof.
  apply (late_answer_is_discarded configured two_prompts 1
           (Fulfilled (message_response "On the ground floor"))).
  cbn. auto.
Defined.

(** ** What goes out on a connection *)





Lemma conversation_step (env : ProcessEnv) (s : Session) (ev : Event) :
  crashed s = None -> answering s -> readyState s = OPEN -> ev <> Close ->
  readyState (step env s ev) = OPEN /\
  length (outbox (step env s ev)) + length (inflight (step env s ev)) =
  length (outbox s) + length (inflight s) + count_prompts [ev].
Proof.
  intros Hc Ha Ho Hev. destruct ev as [data | id r | ]; [ | | contradiction].
  - destruct (is_prompt data) eqn:Hp.
    + unfold count_prompts. cbn [filter]. rewrite Hp. cbn [length].
      destruct data as [message | raw]; [ | discriminate]. cbn in Hp.
      destruct (truthy (getenv env "LANGFLOW_URL")) eqn:Hurl.
      * destruct (prompt_step env s message Hurl Hc Ho Hp)
          as (p & Hin & _ & _ & Hout & Ho' & _).
        cbn zeta in *. rewrite Hin, Hout, length_app. cbn. split; [assumption | lia].
      * destruct (prompt_step_unconfigured env s message Hurl Hc Ho Hp)
          as (Hin & Hout & Ho').
        rewrite Hin, Hout, length_app. cbn. split; [assumption | lia].
    + unfold count_prompts. cbn [filter]. rewrite Hp. cbn [length].
      destruct (other_frame_step env s data Hp) as (Hin & Hout & Hrs).
      rewrite Hin, Hout, Hrs. split; [assumption | lia].
  - unfold count_prompts. cbn [filter length]. unfold step. rewrite Hc.
    destruct (take id (inflight s)) as [[p rest] | ] eqn:Ht; [ | split; [assumption | lia]].
    destruct (take_Forall _ id _ p rest Ht Ha) as [Hp _].
    destruct (exec_emits _ _ (with_inflight rest s) (Hp r)) as (H1 & H2 & H3 & _).
    cbn in H1, H2. rewrite Ho in *. rewrite H1, H2, H3, length_app. cbn.
    split; [reflexivity | ].
    assert (Hlen : length (inflight s) = S (length rest)).
    { clear - Ht. revert p rest Ht.
      induction (inflight s) as [ | q ps IH]; cbn; intros p rest Ht; [discriminate | ].
      destruct (Nat.eqb (call_id q) id).
      - now injection Ht as <- <-.
      - destruct (take id ps) as [[p' rest'] | ]; [ | discriminate].
        injection Ht as <- <-. cbn. now rewrite (IH p' rest'). }
    lia.
Qed.

(** X10. On a connection that has not been closed, every prompt frame
    taken in so far is accounted for exactly once: the number of frames
    sent plus the number of calls still outstanding equals the number of
    prompt frames received.  No prompt is dropped or answered twice, and
    no other frame or event produces a reply. *)
Theorem every_prompt_is_answered_or_outstanding (env : ProcessEnv) (evs : list Event) :
  stays_open evs ->
  length (outbox (steps env connect evs)) + length (inflight (steps env connect evs)) =
  count_prompts evs.
Proof.
  intros Hopen.
  enough (H : forall s, crashed s = None -> answering s -> readyState s = OPEN ->
                        length (outbox (steps env s evs)) + length (inflight (steps env s evs)) =
                        length (outbox s) + length (inflight s) + count_prompts evs).
  { rewrite (H connect); [reflexivity | reflexivity | constructor | reflexivity]. }
  induction Hopen as [ | ev evs Hev _ IH]; intros s Hc Ha Ho.
  - cbn. unfold count_prompts. cbn. lia.
  - destruct (step_healthy env s ev Hc Ha) as [Hc' Ha'].
    destruct (conversation_step env s ev Hc Ha Ho Hev) as [Ho' Hcount].
    cbn [steps fold_left]. fold (steps env (step env s ev) evs).
    rewrite (IH _ Hc' Ha' Ho'), Hcount.
    unfold count_prompts. cbn [filter].
    destruct (match ev with Message data => is_prompt data | _ => false end); cbn; lia.
Qed.

Lemma every_prompt_is_answered_or_outstanding_witness :
  length (outbox (steps configured connect mixed_conversation)) +
  length (inflight (steps configured connect mixed_conversation)) =
  count_prompts mixed_conversation.
Proof.
  apply (every_prompt_is_answered_or_outstanding configured mixed_conversation).
  repeat constructor; discriminate.
Defined.

(** ** Bounds of the extraction *)

(** X11. Only the first entry of [outputs] is read: the entries after it
    never change the reply, and an empty [outputs] array is not an error
    but a missing nested result, so the reply falls back to the top-level
    [message] or to the fixed text. *)
Theorem only_the_first_output_is_read
    (env : ProcessEnv) (userMessage : Value) (t : nat)
    (first : Value) (more : list Value) (others : list (string * Value)) :
  truthy (getenv env "LANGFLOW_URL") = true ->
  returned (ask env userMessage (replies t (Obj (("outputs", Arr (first :: more)) :: others)))) =
  returned (ask env userMessage (replies t (Obj (("outputs", Arr [first]) :: others)))) /\
  returned (ask env userMessage (replies t (Obj (("outputs", Arr []) :: others)))) =
    Some (inl (lookup "message" others <||> Str DIDNT_UNDERSTAND)).
Proof.
  intros Hurl. rewrite !ask_replies by assumption. split; reflexivity.
Qed.

Lemma only_the_first_output_is_read_witness :
  returned (ask configured (Str "hello")
              (replies 120 (Obj [("outputs", Arr [Obj []; nested_body (Str "late")]);
                                 ("message", Str "10:30 AM")]))) =
  returned (ask configured (Str "hello")
              (replies 120 (Obj [("outputs", Arr [Obj []]);
                                 ("message", Str "10:30 AM")]))) /\
  returned (ask configured (Str "hello")
              (replies 120 (Obj [("outputs", Arr []); ("message", Str "10:30 AM")]))) =
    Some (inl (lookup "message" [("message", Str "10:30 AM")] <||> Str DIDNT_UNDERSTAND)).
Proof.
  apply (only_the_first_output_is_read configured (Str "hello") 120
           (Obj []) [nested_body (Str "late")] [("message", Str "10:30 AM")]).
  reflexivity.
Defined.
